(** * lab5: device contract, logging decorator, smart light and IoT facade

    A shallow embedding of
      - [src/lab5/devices/base_device.py]   (class [Device], [LoggingDeviceDecorator])
      - [src/lab5/devices/smart_light.py]   (class [SmartLightDevice])
      - [src/lab5/controller/iot_facade.py] (class [IOTFacade])
    followed by the properties of the specification that concern them.

    Conventions.
      - Python [int] is [Z]; [str] is [string]; a [dict] with [str] keys is an
        association list kept in insertion order with unique keys.
      - A call that can raise returns a [result]; a method that mutates [self]
        returns the new [self] next to its result.
      - [print] appends an event to a trace; [requests.get]/[requests.post]
        are answered by a [Network], which also records every request sent.
      - Python [float] values are left out of the value universe: neither
        their comparison nor their printing is needed by any property below. *)

From Stdlib Require Import ZArith String List Bool Lia DecimalString.
Import ListNotations.
Open Scope string_scope.
Open Scope Z_scope.

(* ================================================================== *)
(** ** Python values, exceptions and dictionaries *)
(* ================================================================== *)

Module Py.

(** The exceptions that occur in the three modules.  The last four are
    the classes of [requests.exceptions], all subclasses of
    [RequestException]; [ValueError] is what a JSON decoder outside of
    [requests] raises. *)
Inductive exn : Type :=
| TypeError
| KeyError
| ValueError
| ConnectionError
| Timeout
| HTTPError
| JSONDecodeError.

(** [isinstance(e, requests.RequestException)] *)
Definition is_RequestException (e : exn) : bool :=
  match e with
  | ConnectionError | Timeout | HTTPError | JSONDecodeError => true
  | TypeError | KeyError | ValueError => false
  end.

Inductive result (A : Type) : Type :=
| Ret (a : A)
| Raise (e : exn).
Arguments Ret {A} a.
Arguments Raise {A} e.

(** Values passed as keyword arguments and stored in device fields. *)
Inductive pyval : Type :=
| VNone
| VBool (b : bool)
| VInt (n : Z)
| VStr (s : string).

#[local] Set Warnings "-register-all".

(** Objects produced by [response.json()]; [ONone] is Python's [None]. *)
Inductive pyobj : Type :=
| ONone
| OBool (b : bool)
| OInt (n : Z)
| OStr (s : string)
| OList (l : list pyobj)
| ODict (d : list (string * pyobj)).

(** [str(n)] for an [int]. *)
Definition str_int (n : Z) : string := NilZero.string_of_int (Z.to_int n).

(** [str(v)] *)
Definition str (v : pyval) : string :=
  match v with
  | VNone => "None"
  | VBool true => "True"
  | VBool false => "False"
  | VInt n => str_int n
  | VStr s => s
  end.

(** [v == s] for a string literal [s]: only a [str] can be equal to it. *)
Definition eq_str (v : pyval) (s : string) : bool :=
  match v with
  | VStr t => String.eqb t s
  | _ => false
  end.

(** [n <= v] for an [int] literal [n]: [bool] is a subclass of [int];
    ordering an [int] against [None] or a [str] raises [TypeError]. *)
Definition int_le (n : Z) (v : pyval) : result bool :=
  match v with
  | VInt m => Ret (n <=? m)
  | VBool b => Ret (n <=? Z.b2z b)
  | VNone | VStr _ => Raise TypeError
  end.

(** [v <= n] for an [int] literal [n]. *)
Definition le_int (v : pyval) (n : Z) : result bool :=
  match v with
  | VInt m => Ret (m <=? n)
  | VBool b => Ret (Z.b2z b <=? n)
  | VNone | VStr _ => Raise TypeError
  end.

(** The chained comparison [lo <= v <= hi]: [v] is evaluated once and the
    second comparison only happens when the first one is true. *)
Definition between (lo : Z) (v : pyval) (hi : Z) : result bool :=
  match int_le lo v with
  | Ret true => le_int v hi
  | Ret false => Ret false
  | Raise e => Raise e
  end.

(** [bool(o)], the truth value tested by [if o:]. *)
Definition truthy (o : pyobj) : bool :=
  match o with
  | ONone => false
  | OBool b => b
  | OInt n => negb (n =? 0)
  | OStr s => negb (String.eqb s "")
  | OList l => match l with [] => false | _ :: _ => true end
  | ODict d => match d with [] => false | _ :: _ => true end
  end.

(** [o is not None] *)
Definition is_not_None (o : pyobj) : bool :=
  match o with
  | ONone => false
  | _ => true
  end.

(** *** Dictionaries with [str] keys *)

Definition dict (V : Type) : Type := list (string * V).

Section Dict.
Context {V : Type}.

(** [d[k]], [None] standing for [KeyError]. *)
Fixpoint lookup (d : dict V) (k : string) : option V :=
  match d with
  | [] => None
  | (k', v) :: d' => if String.eqb k' k then Some v else lookup d' k
  end.

(** [k in d] *)
Definition contains (d : dict V) (k : string) : bool :=
  match lookup d k with
  | Some _ => true
  | None => false
  end.

(** [d[k] = v]: an existing key keeps its position, a new key goes last. *)
Fixpoint setitem (d : dict V) (k : string) (v : V) : dict V :=
  match d with
  | [] => [(k, v)]
  | (k', v') :: d' =>
      if String.eqb k' k then (k', v) :: d' else (k', v') :: setitem d' k v
  end.

(** [list(d)], the keys in iteration order. *)
Definition keys (d : dict V) : list string := map fst d.

(** [d.values()] *)
Definition values (d : dict V) : list V := map snd d.
End Dict.

(** [d.get(k)], whose default is [None]. *)
Definition get (d : dict pyval) (k : string) : pyval :=
  match lookup d k with
  | Some v => v
  | None => VNone
  end.

(** [sep.join(l)] *)
Definition join (sep : string) (l : list string) : string :=
  String.concat sep l.

End Py.

(* ================================================================== *)
(** ** base_device.py: the device contract and the logging decorator *)
(* ================================================================== *)

Module BaseDevice.
Import Py.

(** One line written by [print]; the fields are the values interpolated
    into the line, in the order in which they appear in it. *)
Inductive stdout_line : Type :=
| GettingStatus (device_id : string)
    (* Logging: Getting status for {device_id} *)
| Performing (action device_id : string) (kwargs : dict pyval).
    (* Logging: Performing {action} on {device_id} with params {kwargs} *)

(** What a call on a device of type [D] leaves behind: the device after the
    call, the lines printed during the call, and what the call returned or
    raised. *)
Record run (D A : Type) : Type := Run {
  self_after : D;
  printed : list stdout_line;
  returned : result A
}.
Arguments Run {D A} _ _ _.
Arguments self_after {D A} _.
Arguments printed {D A} _.
Arguments returned {D A} _.

(** [class Device(ABC)]: the attributes set by [__init__] and the two
    abstract methods.  The [app] attribute and [run_server] belong to the
    HTTP transport and are not part of the embedding. *)
Class Device (D : Type) : Type := {
  device_id : D -> string;
  host : D -> string;
  port : D -> Z;
  get_status : D -> run D (dict pyval);
  perform_action : D -> string -> dict pyval -> run D bool
}.

(** [class LoggingDeviceDecorator(Device)]: [_device] is the wrapped device;
    [_device_id], [_host] and [_port] are the decorator's own attributes
    [device_id], [host] and [port], set by [Device.__init__] (the plain
    names are those of the contract above). *)
Record LoggingDeviceDecorator (D : Type) : Type := {
  _device : D;
  _device_id : string;
  _host : string;
  _port : Z
}.
Arguments _device {D} _.
Arguments _device_id {D} _.
Arguments _host {D} _.
Arguments _port {D} _.

(** [LoggingDeviceDecorator.__init__] *)
Definition LoggingDeviceDecorator__init__ {D : Type} `{Device D} (device : D)
  : LoggingDeviceDecorator D :=
  {| _device := device;
     _device_id := device_id device;
     _host := host device;
     _port := port device |}.

(** The decorator holds a reference to the device it wraps, so what a call
    does to the wrapped device is what [self._device] shows afterwards:
    [with_device self d] is [self] with [d], the wrapped device after the
    call, behind that reference. *)
Definition with_device {D : Type} (self : LoggingDeviceDecorator D) (d : D)
  : LoggingDeviceDecorator D :=
  {| _device := d;
     _device_id := _device_id self;
     _host := _host self;
     _port := _port self |}.

(** [LoggingDeviceDecorator.get_status] *)
Definition logging_get_status {D : Type} `{Device D}
    (self : LoggingDeviceDecorator D) : run (LoggingDeviceDecorator D) (dict pyval) :=
  let line := GettingStatus (_device_id self) in
  let r := get_status (_device self) in
  Run (with_device self (self_after r)) (line :: printed r) (returned r).

(** [LoggingDeviceDecorator.perform_action] *)
Definition logging_perform_action {D : Type} `{Device D}
    (self : LoggingDeviceDecorator D) (action : string) (kwargs : dict pyval)
  : run (LoggingDeviceDecorator D) bool :=
  let line := Performing action (_device_id self) kwargs in
  let r := perform_action (_device self) action kwargs in
  Run (with_device self (self_after r)) (line :: printed r) (returned r).

(** A decorator is a [Device] again, whatever device it wraps. *)
#[global] Instance LoggingDeviceDecorator_Device {D : Type} `{Device D}
  : Device (LoggingDeviceDecorator D) := {
  device_id := _device_id;
  host := _host;
  port := _port;
  get_status := logging_get_status;
  perform_action := logging_perform_action
}.

End BaseDevice.

(* ================================================================== *)
(** ** smart_light.py: the light *)
(* ================================================================== *)

Module SmartLight.
Import Py.

(** [class LightState(BaseModel)].  Assignment to a field is not validated,
    so [brightness] holds whatever value was assigned to it. *)
Record LightState : Type := {
  is_on : bool;
  brightness : pyval
}.

(** [LightState()] *)
Definition LightState__init__ : LightState :=
  {| is_on := false; brightness := VInt 50 |}.

(** [class SmartLightDevice(Device)] *)
Record SmartLightDevice : Type := {
  device_id : string;
  host : string;
  port : Z;
  state : LightState
}.

(** [SmartLightDevice.__init__]; the defaults of [host] and [port] are
    ["127.0.0.1"] and [8002]. *)
Definition SmartLightDevice__init__ (device_id host : string) (port : Z)
  : SmartLightDevice :=
  {| device_id := device_id; host := host; port := port;
     state := LightState__init__ |}.

(** [self.state.is_on = b] *)
Definition set_is_on (self : SmartLightDevice) (b : bool) : SmartLightDevice :=
  {| device_id := device_id self; host := host self; port := port self;
     state := {| is_on := b; brightness := brightness (state self) |} |}.

(** [self.state.brightness = v] *)
Definition set_brightness (self : SmartLightDevice) (v : pyval) : SmartLightDevice :=
  {| device_id := device_id self; host := host self; port := port self;
     state := {| is_on := is_on (state self); brightness := v |} |}.

(** [SmartLightDevice.get_status] *)
Definition get_status (self : SmartLightDevice) : dict pyval :=
  [ ("device_id", VStr (device_id self));
    ("type", VStr "smart_light");
    ("is_on", VBool (is_on (state self)));
    ("brightness", brightness (state self));
    ("connection", VStr (host self ++ ":" ++ str_int (port self))) ].

(** [SmartLightDevice.perform_action]: the device after the call and what
    the call returned or raised. *)
Definition perform_action (self : SmartLightDevice) (action : string)
    (kwargs : dict pyval) : SmartLightDevice * result bool :=
  if String.eqb action "power" then
    let state := get kwargs "state" in
    if eq_str state "on" then (set_is_on self true, Ret true)
    else if eq_str state "off" then (set_is_on self false, Ret true)
    else (self, Ret false)
  else if String.eqb action "brightness" then
    let level := get kwargs "level" in
    match between 0 level 100 with
    | Raise e => (self, Raise e)
    | Ret true => (set_brightness self level, Ret true)
    | Ret false => (self, Ret false)
    end
  else (self, Ret false).

(** The light implements the device contract; it prints nothing. *)
#[global] Instance SmartLightDevice_Device : BaseDevice.Device SmartLightDevice := {
  BaseDevice.device_id := device_id;
  BaseDevice.host := host;
  BaseDevice.port := port;
  BaseDevice.get_status := fun self => BaseDevice.Run self [] (Ret (get_status self));
  BaseDevice.perform_action := fun self action kwargs =>
    let (self', r) := perform_action self action kwargs in
    BaseDevice.Run self' [] r
}.

End SmartLight.

(* ================================================================== *)
(** ** The [requests] library as the facade sees it *)
(* ================================================================== *)

Module Requests.
Import Py.

Inductive method : Type := GET | POST.

(** A call [requests.get(url, timeout=t)] or [requests.post(url, timeout=t)]. *)
Record Request : Type := {
  verb : method;
  url : string;
  timeout : Z
}.

(** A [Response]: its status code and what [response.json()] does. *)
Record Response : Type := {
  status_code : Z;
  json : result pyobj
}.

(** What a request comes to: an exception (connection refused, timed
    out, ...) or a response. *)
Inductive answer : Type :=
| Raises (e : exn)
| Responds (r : Response).

(** The devices behind the wire.  [respond] gives the answer to a request
    from the requests sent before it, so that the same URL may be answered
    differently from one call to the next; [sent] is the list of the requests
    issued so far, oldest first. *)
Record Network : Type := {
  respond : list Request -> Request -> answer;
  sent : list Request
}.

(** Computations that talk to the network and may raise. *)
Definition M (A : Type) : Type := Network -> Network * result A.

Definition ret {A : Type} (a : A) : M A := fun n => (n, Ret a).

Definition raise {A : Type} (e : exn) : M A := fun n => (n, Raise e).

Definition bind {A B : Type} (c : M A) (k : A -> M B) : M B :=
  fun n =>
    match c n with
    | (n', Ret a) => k a n'
    | (n', Raise e) => (n', Raise e)
    end.

(** [try: body / except cls: handler] *)
Definition try_except {A : Type} (body : M A) (cls : exn -> bool) (handler : M A)
  : M A :=
  fun n =>
    match body n with
    | (n', Ret a) => (n', Ret a)
    | (n', Raise e) => if cls e then handler n' else (n', Raise e)
    end.

Declare Scope requests_scope.
Delimit Scope requests_scope with requests.
Notation "x <- c ;; k" := (bind c (fun x => k))
  (at level 61, c at next level, right associativity) : requests_scope.

(** Issue a request: it is recorded and answered. *)
Definition send (rq : Request) : M Response :=
  fun n =>
    let n' := {| respond := respond n; sent := sent n ++ [rq] |} in
    match respond n (sent n) rq with
    | Raises e => (n', Raise e)
    | Responds r => (n', Ret r)
    end.

(** [requests.get(url, timeout=timeout)] *)
Definition get (url : string) (timeout : Z) : M Response :=
  send {| verb := GET; url := url; timeout := timeout |}.

(** [requests.post(url, timeout=timeout)] *)
Definition post (url : string) (timeout : Z) : M Response :=
  send {| verb := POST; url := url; timeout := timeout |}.

(** [response.ok]: the status is neither a client nor a server error. *)
Definition ok (response : Response) : bool :=
  negb ((400 <=? status_code response) && (status_code response <? 600)).

(** [response.raise_for_status()] *)
Definition raise_for_status (response : Response) : M unit :=
  if ok response then ret tt else raise HTTPError.

(** [response.json()] *)
Definition call_json (response : Response) : M pyobj :=
  fun n => (n, json response).

End Requests.

(* ================================================================== *)
(** ** iot_facade.py: the facade *)
(* ================================================================== *)

Module Facade.
Import Py.
Import Requests.
Local Open Scope requests_scope.

(** [class IOTFacade]; [devices] maps a device id to [(host, port)]. *)
Record IOTFacade : Type := {
  devices : dict (string * Z)
}.

(** [IOTFacade.__init__] *)
Definition IOTFacade__init__ : IOTFacade := {| devices := [] |}.

(** [IOTFacade.register_device]: the facade after the call and the string
    returned. *)
Definition register_device {D : Type} `{BaseDevice.Device D}
    (self : IOTFacade) (device : D) : IOTFacade * string :=
  ({| devices := setitem (devices self) (BaseDevice.device_id device)
                   (BaseDevice.host device, BaseDevice.port device) |},
   "Device " ++ BaseDevice.device_id device ++ " registered successfully").

(** [self.devices[device_id]] *)
Definition getitem (self : IOTFacade) (device_id : string) : M (string * Z) :=
  match lookup (devices self) device_id with
  | Some a => ret a
  | None => raise KeyError
  end.

(** [IOTFacade.get_device_status] *)
Definition get_device_status (self : IOTFacade) (device_id : string) : M pyobj :=
  if negb (contains (devices self) device_id) then ret ONone
  else
    a <- getitem self device_id ;;
    let (host, port) := a in
    let url := "http://" ++ host ++ ":" ++ str_int port ++ "/status" in
    try_except
      (response <- Requests.get url 2 ;;
       _ <- raise_for_status response ;;
       call_json response)
      is_RequestException
      (ret ONone).

(** [IOTFacade.perform_device_action] *)
Definition perform_device_action (self : IOTFacade) (device_id action : string)
    (kwargs : dict pyval) : M bool :=
  if negb (contains (devices self) device_id) then ret false
  else
    a <- getitem self device_id ;;
    let (host, port) := a in
    let params := map str (values kwargs) in
    let url_path := "/" ++ action in
    let url_path :=
      match params with
      | [] => url_path
      | _ :: _ => url_path ++ "/" ++ join "/" params
      end in
    let full_url := "http://" ++ host ++ ":" ++ str_int port ++ url_path in
    try_except
      (response <- Requests.post full_url 2 ;;
       _ <- raise_for_status response ;;
       ret true)
      is_RequestException
      (ret false).

(** The loop of [get_all_status] over the device ids still to visit;
    [statuses] is the list built so far. *)
Fixpoint get_all_status_loop (self : IOTFacade) (ids : list string)
    (statuses : list pyobj) : M (list pyobj) :=
  match ids with
  | [] => ret statuses
  | device_id :: ids' =>
      status <- get_device_status self device_id ;;
      get_all_status_loop self ids'
        (if truthy status then statuses ++ [status] else statuses)
  end.

(** [IOTFacade.get_all_status] *)
Definition get_all_status (self : IOTFacade) : M (list pyobj) :=
  get_all_status_loop self (keys (devices self)) [].

End Facade.

(* ================================================================== *)
(** ** The specification's reading of the facade *)
(* ================================================================== *)

Module FacadeSpec.
Import Py.
Import Requests.
Import Facade.
Local Open Scope requests_scope.

(** [get_device_status] called on each id in turn, all results kept. *)
Fixpoint lookups (self : IOTFacade) (ids : list string) : M (list pyobj) :=
  match ids with
  | [] => ret []
  | device_id :: ids' =>
      status <- get_device_status self device_id ;;
      rest <- lookups self ids' ;;
      ret (status :: rest)
  end.

(** The statuses of all registered devices, those selected by [keep] only,
    in the iteration order of the registry. *)
Definition all_status_where (keep : pyobj -> bool) (self : IOTFacade)
  : M (list pyobj) :=
  statuses <- lookups self (keys (devices self)) ;;
  ret (filter keep statuses).

(** The request path as the specification words it: the action name, then
    every parameter value as one more segment. *)
Definition path_segments (action : string) (kwargs : dict pyval) : string :=
  "/" ++ action ++ fold_right (fun v rest => "/" ++ str v ++ rest) "" (values kwargs).

(** The base URL of a device at [host]:[port]. *)
Definition base_url (host : string) (port : Z) : string :=
  "http://" ++ host ++ ":" ++ str_int port.

(** The network after one more request. *)
Definition after_request (n : Network) (rq : Request) : Network :=
  {| respond := respond n; sent := sent n ++ [rq] |}.

(** The request [get_device_status] issues for a device at [host]:[port]. *)
Definition status_request (host : string) (port : Z) : Request :=
  {| verb := GET; url := base_url host port ++ "/status"; timeout := 2 |}.

(** The request [perform_device_action] issues, with the path worded as in
    the specification. *)
Definition action_request (host : string) (port : Z) (action : string)
    (kwargs : dict pyval) : Request :=
  {| verb := POST;
     url := base_url host port ++ path_segments action kwargs;
     timeout := 2 |}.

End FacadeSpec.

(* ================================================================== *)
(** ** Devices wrapped several times *)
(* ================================================================== *)

Module Wrapped.
Import Py.
Import BaseDevice.

(** The type of a device of type [D] after [n] successive calls of
    [LoggingDeviceDecorator(...)] on it. *)
Fixpoint wrapped (D : Type) (n : nat) : Type :=
  match n with
  | O => D
  | S n' => LoggingDeviceDecorator (wrapped D n')
  end.

(** It is a [Device] at every depth. *)
Fixpoint wrapped_Device (D : Type) (dev : Device D) (n : nat)
  : Device (wrapped D n) :=
  match n with
  | O => dev
  | S n' => @LoggingDeviceDecorator_Device _ (wrapped_Device D dev n')
  end.

(** [LoggingDeviceDecorator(... LoggingDeviceDecorator(device) ...)],
    [n] times. *)
Fixpoint wrap {D : Type} (dev : Device D) (n : nat) (device : D) : wrapped D n :=
  match n with
  | O => device
  | S n' =>
      @LoggingDeviceDecorator__init__ _ (wrapped_Device D dev n') (wrap dev n' device)
  end.

(** The device found by following [_device] [n] times. *)
Fixpoint innermost {D : Type} (n : nat) : wrapped D n -> D :=
  match n with
  | O => fun device => device
  | S n' => fun self => innermost n' (_device self)
  end.

End Wrapped.

(* ================================================================== *)
(** ** Concrete devices, registries and networks *)
(* ================================================================== *)

Module Scenario.
Import Py.
Import Requests.
Import Facade.

(** The light of the specification's scenario. *)
Definition L1 : SmartLight.SmartLightDevice :=
  SmartLight.SmartLightDevice__init__ "L1" "127.0.0.1" 8002.

(** A facade on which [L1] has been registered. *)
Definition facade_L1 : IOTFacade := fst (register_device IOTFacade__init__ L1).

(** A network on which nothing has been sent yet and which answers every
    request in the way [how] says. *)
Definition fresh (how : Request -> answer) : Network :=
  {| respond := fun _ rq => how rq; sent := [] |}.

(** A device that answers every request with status 200 and the JSON
    object [{}]. *)
Definition empty_status : Network :=
  fresh (fun _ => Responds {| status_code := 200; json := Ret (ODict []) |}).

(** A device that answers every request with status 200 and some status. *)
Definition up : Network :=
  fresh (fun _ => Responds {| status_code := 200;
                              json := Ret (ODict [("is_on", OBool true)]) |}).

(** Nothing listens: every request fails to connect. *)
Definition down : Network := fresh (fun _ => Raises ConnectionError).

(** A facade with two devices, [A] at [a:1] and [B] at [b:2]. *)
Definition facade_A_B : IOTFacade :=
  {| devices := [("A", ("a", 1)); ("B", ("b", 2))] |}.

(** The status that [A] reports. *)
Definition status_A : pyobj :=
  ODict [("device_id", OStr "A"); ("is_on", OBool false)].

(** [A] is reachable, nothing else is. *)
Definition only_A_up : Network :=
  fresh (fun rq =>
           if String.eqb (url rq) "http://a:1/status"
           then Responds {| status_code := 200; json := Ret status_A |}
           else Raises ConnectionError).

End Scenario.

(* ================================================================== *)
(** ** smart_light.py: the route handlers *)
(* ================================================================== *)

Module Routes.
Import Py.
Import SmartLight.

(** What the body of a route handler comes to: the value it returns, the
    [HTTPException] it raises, or an exception of the device that it lets
    through. *)
Inductive outcome : Type :=
| Returns (body : dict pyval)
| HTTPException (status_code : Z) (detail : string)
| Fails (e : exn).

(** The handler of [GET /status] in [_setup_routes]. *)
Definition get_status (self : SmartLightDevice) : SmartLightDevice * outcome :=
  (self, Returns (SmartLight.get_status self)).

(** The handler of [POST /power/{state}]; [state] is declared [str]. *)
Definition set_power (self : SmartLightDevice) (state : string)
  : SmartLightDevice * outcome :=
  match perform_action self "power" [("state", VStr state)] with
  | (self', Ret true) => (self', Returns [("status", VStr "success")])
  | (self', Ret false) => (self', HTTPException 400 "Invalid power state")
  | (self', Raise e) => (self', Fails e)
  end.

(** The handler of [POST /brightness/{level}]; [level] is declared [int],
    so the handler is only ever entered with an integer. *)
Definition set_brightness (self : SmartLightDevice) (level : Z)
  : SmartLightDevice * outcome :=
  match perform_action self "brightness" [("level", VInt level)] with
  | (self', Ret true) => (self', Returns [("status", VStr "success")])
  | (self', Ret false) => (self', HTTPException 400 "Invalid brightness level")
  | (self', Raise e) => (self', Fails e)
  end.

End Routes.

(* ================================================================== *)
(** ** Sequences of calls *)
(* ================================================================== *)

Module Sequences.
Import Py.

(** The light after the calls [perform_action(action, **kwargs)] of a list,
    made one after the other whatever each of them returned or raised. *)
Fixpoint perform_all (self : SmartLight.SmartLightDevice)
    (calls : list (string * dict pyval)) : SmartLight.SmartLightDevice :=
  match calls with
  | [] => self
  | (action, kwargs) :: calls' =>
      perform_all (fst (SmartLight.perform_action self action kwargs)) calls'
  end.


(** The facade after [register_device] has been called on every device of
    a list, first to last. *)
Fixpoint register_all {D : Type} `{BaseDevice.Device D}
    (self : Facade.IOTFacade) (devices : list D) : Facade.IOTFacade :=
  match devices with
  | [] => self
  | device :: devices' =>
      register_all (fst (Facade.register_device self device)) devices'
  end.

(** A network on which a request either gets a response or fails with a
    [RequestException], and on which [response.json()] either returns or
    fails with a [RequestException]. *)
Definition only_RequestException (n : Requests.Network) : Prop :=
  forall (before : list Requests.Request) (rq : Requests.Request),
    match Requests.respond n before rq with
    | Requests.Raises e => is_RequestException e = true
    | Requests.Responds r =>
        match Requests.json r with
        | Ret _ => True
        | Raise e => is_RequestException e = true
        end
    end.

End Sequences.

(* ================================================================== *)
(** ** The app that a decorated light serves *)
(* ================================================================== *)

Module Served.
Import Py.
Import BaseDevice.
Import Wrapped.

(** A request as the app hands it to one of the three handlers. *)
Inductive routed : Type :=
| Status
| Power (state : string)
| Brightness (level : Z).

(** [self.app] of a light: the handlers that [_setup_routes] binds to the
    light itself.  None of them prints. *)
Definition light_app (self : SmartLight.SmartLightDevice) (rq : routed)
  : SmartLight.SmartLightDevice * list stdout_line * Routes.outcome :=
  let (self', o) :=
    match rq with
    | Status => Routes.get_status self
    | Power state => Routes.set_power self state
    | Brightness level => Routes.set_brightness self level
    end in
  (self', [], o).

(** [self.app] of a light behind [n] decorators.  [__init__] of the
    decorator sets [self.app = device.app] and [run_server] hands over to
    [self._device.run_server()]: at every depth the app is the one of the
    light, whose handlers call the light's methods and not the
    decorators'. *)
Fixpoint app (n : nat)
  : wrapped SmartLight.SmartLightDevice n -> routed ->
    wrapped SmartLight.SmartLightDevice n * list stdout_line * Routes.outcome :=
  match n with
  | O => light_app
  | S n' => fun self rq =>
      let '(device', lines, o) := app n' (_device self) rq in
      (with_device self device', lines, o)
  end.

End Served.

(* ================================================================== *)
(** ** Networks on which things go wrong *)
(* ================================================================== *)

Module Faults.
Import Py.
Import Requests.

(** [A] answers with its status; every other device answers 200 with a
    body on which [response.json()] raises [ValueError]. *)
Definition A_up_others_garbled : Network :=
  Scenario.fresh (fun rq =>
    if String.eqb (url rq) "http://a:1/status"
    then Responds {| status_code := 200; json := Ret Scenario.status_A |}
    else Responds {| status_code := 200; json := Raise ValueError |}).

(** Every device answers with status 503 and a body that is a status. *)
Definition unavailable : Network :=
  Scenario.fresh (fun _ =>
    Responds {| status_code := 503; json := Ret Scenario.status_A |}).

End Faults.

(* ================================================================== *)
(** ** Properties of the smart light *)
(* ================================================================== *)

Section SmartLightProperties.
Import Py.
Import SmartLight.

Lemma between_int (lo hi n : Z) :
  between lo (VInt n) hi = Ret ((lo <=? n) && (n <=? hi)).
Proof.
  unfold between; simpl.
  destruct (lo <=? n); reflexivity.
Qed.

Lemma get_singleton (k : string) (v : pyval) : get [(k, v)] k = v.
Proof.
  unfold get; simpl. rewrite String.eqb_refl. reflexivity.
Qed.

(** Any keyword arguments whose [level] is the integer [L]. *)
Lemma perform_action_brightness_int (self : SmartLightDevice)
    (kwargs : dict pyval) (L : Z) :
  get kwargs "level" = VInt L ->
  perform_action self "brightness" kwargs =
    if (0 <=? L) && (L <=? 100)
    then (set_brightness self (VInt L), Ret true)
    else (self, Ret false).
Proof.
  intros Hlevel.
  unfold perform_action; simpl.
  rewrite Hlevel, between_int.
  destruct ((0 <=? L) && (L <=? 100)); reflexivity.
Qed.

(** An action name other than the two the light knows is answered [False]. *)
Lemma perform_action_unknown_action (self : SmartLightDevice)
    (action : string) (kwargs : dict pyval) :
  action <> "power" -> action <> "brightness" ->
  perform_action self action kwargs = (self, Ret false).
Proof.
  intros Hp Hb.
  unfold perform_action.
  apply String.eqb_neq in Hp; apply String.eqb_neq in Hb.
  rewrite Hp, Hb. reflexivity.
Qed.

(** Whatever [perform_action] does, the device it leaves behind is the same
    one up to its [state]. *)
Lemma perform_action_identity (self : SmartLightDevice) (action : string)
    (kwargs : dict pyval) :
  let self' := fst (perform_action self action kwargs) in
  device_id self' = device_id self /\ host self' = host self /\ port self' = port self.
Proof.
  unfold perform_action.
  destruct (String.eqb action "power").
  - destruct (eq_str _ "on"); [simpl; auto|].
    destruct (eq_str _ "off"); simpl; auto.
  - destruct (String.eqb action "brightness"); [|simpl; auto].
    destruct (between 0 _ 100) as [[|]|e]; simpl; auto.
Qed.

(** C1: with action ["brightness"] and no [level] among the keyword
    arguments, or a [level] that is a string, [perform_action] does not
    return [False]: the comparison [0 <= level <= 100] raises [TypeError],
    and the device is left as it was. *)
Theorem perform_action_brightness_malformed_level_raises
    (self : SmartLightDevice) (s : string) :
  perform_action self "brightness" [] = (self, Raise TypeError) /\
  perform_action self "brightness" [("level", VNone)] = (self, Raise TypeError) /\
  perform_action self "brightness" [("level", VStr s)] = (self, Raise TypeError).
Proof.
  repeat split; reflexivity.
Qed.

(** C3: for an integer [L] with [0 <= L <= 100],
    [perform_action("brightness", level=L)] returns [True] and the
    brightness is [L] afterwards; for an integer [L] outside of that range
    it returns [False] and the device, its brightness included, is
    unchanged. *)
Theorem perform_action_brightness_range (self : SmartLightDevice) (L : Z) :
  let call := perform_action self "brightness" [("level", VInt L)] in
  (0 <= L <= 100 ->
     snd call = Ret true /\ brightness (state (fst call)) = VInt L) /\
  (L < 0 \/ 100 < L ->
     snd call = Ret false /\ fst call = self).
Proof.
  cbv zeta.
  rewrite (perform_action_brightness_int self _ L (get_singleton "level" (VInt L))).
  split; intros HL.
  - replace ((0 <=? L) && (L <=? 100)) with true; [split; reflexivity|].
    symmetry; apply andb_true_iff; split; apply Z.leb_le; lia.
  - replace ((0 <=? L) && (L <=? 100)) with false; [split; reflexivity|].
    symmetry; apply andb_false_iff.
    destruct HL; [left | right]; apply Z.leb_gt; lia.
Qed.

Lemma perform_action_brightness_range_witness :
  (snd (perform_action (SmartLightDevice__init__ "L1" "127.0.0.1" 8002)
          "brightness" [("level", VInt 75)]) = Ret true /\
   brightness (state (fst (perform_action (SmartLightDevice__init__ "L1" "127.0.0.1" 8002)
          "brightness" [("level", VInt 75)]))) = VInt 75) /\
  (snd (perform_action (SmartLightDevice__init__ "L1" "127.0.0.1" 8002)
          "brightness" [("level", VInt 101)]) = Ret false /\
   fst (perform_action (SmartLightDevice__init__ "L1" "127.0.0.1" 8002)
          "brightness" [("level", VInt 101)]) = SmartLightDevice__init__ "L1" "127.0.0.1" 8002).
Proof.
  split.
  - apply (proj1 (perform_action_brightness_range
                    (SmartLightDevice__init__ "L1" "127.0.0.1" 8002) 75)); lia.
  - apply (proj2 (perform_action_brightness_range
                    (SmartLightDevice__init__ "L1" "127.0.0.1" 8002) 101)); lia.
Defined.

(** C4: [perform_action("power", state="on")] returns [True] and [is_on]
    is true afterwards; with [state="off"] it returns [True] and [is_on] is
    false afterwards; with any other [state], or none, it returns [False]
    and the device, [is_on] included, is unchanged. *)
Theorem perform_action_power (self : SmartLightDevice) (kwargs : dict pyval) :
  let call := perform_action self "power" kwargs in
  (get kwargs "state" = VStr "on" ->
     snd call = Ret true /\ is_on (state (fst call)) = true) /\
  (get kwargs "state" = VStr "off" ->
     snd call = Ret true /\ is_on (state (fst call)) = false) /\
  (get kwargs "state" <> VStr "on" -> get kwargs "state" <> VStr "off" ->
     snd call = Ret false /\ fst call = self).
Proof.
  cbv zeta. unfold perform_action; simpl.
  split; [|split].
  - intros Hon. rewrite Hon. split; reflexivity.
  - intros Hoff. rewrite Hoff. split; reflexivity.
  - intros Hon Hoff.
    destruct (get kwargs "state") as [| b | n | s]; simpl;
      try (split; reflexivity).
    destruct (String.eqb s "on") eqn:Eon;
      [apply String.eqb_eq in Eon; subst s; contradiction|].
    destruct (String.eqb s "off") eqn:Eoff;
      [apply String.eqb_eq in Eoff; subst s; contradiction|].
    split; reflexivity.
Qed.

Lemma perform_action_power_witness :
  let light := SmartLightDevice__init__ "L1" "127.0.0.1" 8002 in
  (snd (perform_action light "power" [("state", VStr "on")]) = Ret true /\
   is_on (state (fst (perform_action light "power" [("state", VStr "on")]))) = true) /\
  (snd (perform_action light "power" [("state", VStr "off")]) = Ret true /\
   is_on (state (fst (perform_action light "power" [("state", VStr "off")]))) = false) /\
  (snd (perform_action light "power" [("state", VStr "dim")]) = Ret false /\
   fst (perform_action light "power" [("state", VStr "dim")]) = light) /\
  (snd (perform_action light "power" []) = Ret false /\
   fst (perform_action light "power" []) = light).
Proof.
  intros light. repeat apply conj.
  1-2: apply (proj1 (perform_action_power light [("state", VStr "on")]));
       reflexivity.
  1-2: apply (proj1 (proj2 (perform_action_power light [("state", VStr "off")])));
       reflexivity.
  1-2: apply (proj2 (proj2 (perform_action_power light [("state", VStr "dim")])));
       discriminate.
  1-2: apply (proj2 (proj2 (perform_action_power light [])));
       discriminate.
Defined.

(** C7: [get_status] is total and returns a dictionary with exactly the keys
    [device_id], [type], [is_on], [brightness] and [connection]; [type] is
    the string ["smart_light"], [device_id] is the device's id, [connection]
    is ["host:port"], and [is_on] and [brightness] are the current state. *)
Theorem get_status_snapshot (self : SmartLightDevice) :
  let status := get_status self in
  keys status = ["device_id"; "type"; "is_on"; "brightness"; "connection"] /\
  lookup status "device_id" = Some (VStr (device_id self)) /\
  lookup status "type" = Some (VStr "smart_light") /\
  lookup status "is_on" = Some (VBool (is_on (state self))) /\
  lookup status "brightness" = Some (brightness (state self)) /\
  lookup status "connection" =
    Some (VStr (host self ++ ":" ++ str_int (port self))) /\
  BaseDevice.returned (BaseDevice.get_status self) = Ret status /\
  BaseDevice.self_after (BaseDevice.get_status self) = self.
Proof.
  repeat split.
Qed.

(** C10: [perform_action] with action ["power"] leaves [brightness] as it
    was, with action ["brightness"] it leaves [is_on] as it was, and with
    any action it leaves [device_id], [host] and [port] as they were. *)
Theorem perform_action_frame (self : SmartLightDevice) (action : string)
    (kwargs : dict pyval) :
  brightness (state (fst (perform_action self "power" kwargs))) =
    brightness (state self) /\
  is_on (state (fst (perform_action self "brightness" kwargs))) =
    is_on (state self) /\
  device_id (fst (perform_action self action kwargs)) = device_id self /\
  host (fst (perform_action self action kwargs)) = host self /\
  port (fst (perform_action self action kwargs)) = port self.
Proof.
  split; [|split; [|apply perform_action_identity]].
  - unfold perform_action; simpl.
    destruct (eq_str _ "on"); [reflexivity|].
    destruct (eq_str _ "off"); reflexivity.
  - unfold perform_action; simpl.
    destruct (between 0 _ 100) as [[|]|e]; reflexivity.
Qed.

End SmartLightProperties.

(* ================================================================== *)
(** ** Properties of the logging decorator *)
(* ================================================================== *)

Section DecoratorProperties.
Import Py.
Import BaseDevice.
Import Wrapped.

Context {D : Type} {dev : Device D}.

(** Both methods of a decorator: one line printed, then the wrapped
    device's own run. *)
Lemma logging_get_status_run (self : LoggingDeviceDecorator D) :
  get_status self =
    let r := get_status (_device self) in
    Run (with_device self (self_after r))
        (GettingStatus (device_id self) :: printed r)
        (returned r).
Proof. reflexivity. Qed.

Lemma logging_perform_action_run (self : LoggingDeviceDecorator D)
    (action : string) (kwargs : dict pyval) :
  perform_action self action kwargs =
    let r := perform_action (_device self) action kwargs in
    Run (with_device self (self_after r))
        (Performing action (device_id self) kwargs :: printed r)
        (returned r).
Proof. reflexivity. Qed.

Lemma innermost_wrap (n : nat) (device : D) :
  innermost n (wrap dev n device) = device.
Proof.
  induction n as [|n IH]; simpl; [reflexivity | exact IH].
Qed.

(** At any depth, a call returns what the innermost device returns and
    leaves that device as a direct call would. *)
Lemma wrapped_get_status (n : nat) (self : wrapped D n) :
  let through := @get_status _ (wrapped_Device D dev n) self in
  let direct := get_status (innermost n self) in
  returned through = returned direct /\
  innermost n (self_after through) = self_after direct.
Proof.
  induction n as [|n IH]; simpl.
  - split; reflexivity.
  - destruct (IH (_device self)) as [Hret Hself].
    split; assumption.
Qed.

Lemma wrapped_perform_action (n : nat) (self : wrapped D n)
    (action : string) (kwargs : dict pyval) :
  let through := @perform_action _ (wrapped_Device D dev n) self action kwargs in
  let direct := perform_action (innermost n self) action kwargs in
  returned through = returned direct /\
  innermost n (self_after through) = self_after direct.
Proof.
  induction n as [|n IH]; simpl.
  - split; reflexivity.
  - destruct (IH (_device self)) as [Hret Hself].
    split; assumption.
Qed.

(** C2: [get_status] and [perform_action] called on a decorator return (or
    raise) exactly what the same call on the wrapped device returns, and
    leave the wrapped device in the state in which the direct call leaves
    it; the wrapped device may be any [Device], a decorator included, and
    the same holds through [n] decorators stacked on one device. *)
Theorem logging_decorator_transparent (self : LoggingDeviceDecorator D)
    (action : string) (kwargs : dict pyval) :
  (returned (get_status self) = returned (get_status (_device self)) /\
   _device (self_after (get_status self)) = self_after (get_status (_device self))) /\
  (returned (perform_action self action kwargs) =
     returned (perform_action (_device self) action kwargs) /\
   _device (self_after (perform_action self action kwargs)) =
     self_after (perform_action (_device self) action kwargs)) /\
  (forall (n : nat) (device : D),
     returned (@get_status _ (wrapped_Device D dev n) (wrap dev n device)) =
       returned (get_status device) /\
     returned (@perform_action _ (wrapped_Device D dev n) (wrap dev n device)
                 action kwargs) =
       returned (perform_action device action kwargs)).
Proof.
  split; [|split].
  - rewrite logging_get_status_run. split; reflexivity.
  - rewrite logging_perform_action_run. split; reflexivity.
  - intros n device. split.
    + rewrite (proj1 (wrapped_get_status n (wrap dev n device))).
      rewrite innermost_wrap. reflexivity.
    + rewrite (proj1 (wrapped_perform_action n (wrap dev n device) action kwargs)).
      rewrite innermost_wrap. reflexivity.
Qed.

End DecoratorProperties.

(* ================================================================== *)
(** ** Properties of the facade *)
(* ================================================================== *)

Section DictProperties.
Import Py.
Context {V : Type}.

Lemma lookup_setitem_same (d : dict V) (k : string) (v : V) :
  lookup (setitem d k v) k = Some v.
Proof.
  induction d as [|[k' v'] d IH]; simpl.
  - rewrite String.eqb_refl. reflexivity.
  - destruct (String.eqb k' k) eqn:E; simpl; rewrite E; [reflexivity | exact IH].
Qed.

Lemma lookup_setitem_other (d : dict V) (k k' : string) (v : V) :
  k' <> k -> lookup (setitem d k v) k' = lookup d k'.
Proof.
  intros Hne.
  induction d as [|[k0 v0] d IH]; simpl.
  - destruct (String.eqb k k') eqn:E; [|reflexivity].
    apply String.eqb_eq in E. congruence.
  - destruct (String.eqb k0 k) eqn:E; simpl.
    + apply String.eqb_eq in E; subst k0.
      destruct (String.eqb k k') eqn:E'; [|reflexivity].
      apply String.eqb_eq in E'. congruence.
    + rewrite IH. reflexivity.
Qed.

Lemma contains_lookup (d : dict V) (k : string) (v : V) :
  lookup d k = Some v -> contains d k = true.
Proof.
  unfold contains. intros ->. reflexivity.
Qed.

End DictProperties.

Section StringProperties.

Lemma append_assoc (s t u : string) : ((s ++ t) ++ u = s ++ (t ++ u))%string.
Proof.
  induction s as [|c s IH]; simpl; [reflexivity | rewrite IH; reflexivity].
Qed.

Lemma append_empty_r (s : string) : (s ++ "" = s)%string.
Proof.
  induction s as [|c s IH]; simpl; [reflexivity | rewrite IH; reflexivity].
Qed.

(** Joining with ["/"] behind a leading ["/"] puts one ["/"] in front of
    every element. *)
Lemma slash_join (p : string) (ps : list string) :
  ("/" ++ Py.join "/" (p :: ps))%string =
    fold_right (fun q rest => "/" ++ q ++ rest)%string ""%string (p :: ps).
Proof.
  revert p. induction ps as [|q ps IH]; intros p.
  - simpl. rewrite append_empty_r. reflexivity.
  - change (Py.join "/" (p :: q :: ps)) with (p ++ "/" ++ Py.join "/" (q :: ps))%string.
    rewrite IH. reflexivity.
Qed.

End StringProperties.

Section FacadeProperties.
Import Py.
Import Requests.
Import Facade.
Import FacadeSpec.
Local Open Scope requests_scope.

Lemma segments_map (vs : list pyval) :
  fold_right (fun q rest => "/" ++ q ++ rest)%string ""%string (map str vs) =
  fold_right (fun v rest => "/" ++ str v ++ rest)%string ""%string vs.
Proof.
  induction vs as [|v vs IH]; cbn [fold_right map];
    [reflexivity | rewrite IH; reflexivity].
Qed.

(** The path built by the code is the path of the specification. *)
Lemma url_path_segments (action : string) (kwargs : dict pyval) :
  match map str (values kwargs) with
  | [] => "/" ++ action
  | _ :: _ => ("/" ++ action) ++ "/" ++ join "/" (map str (values kwargs))
  end%string = path_segments action kwargs.
Proof.
  unfold path_segments, values.
  destruct kwargs as [|[k v] kwargs].
  - simpl. rewrite append_empty_r. reflexivity.
  - cbn [map snd].
    rewrite slash_join.
    change (str v :: map str (map snd kwargs)) with (map str (v :: map snd kwargs)).
    rewrite segments_map. reflexivity.
Qed.

(** [get_device_status] on a registered id: one GET, and the result read
    off the answer. *)
Lemma get_device_status_registered (self : IOTFacade) (device_id host : string)
    (port : Z) (n : Network) :
  lookup (devices self) device_id = Some (host, port) ->
  get_device_status self device_id n =
    (after_request n (status_request host port),
     match respond n (sent n) (status_request host port) with
     | Raises e => if is_RequestException e then Ret ONone else Raise e
     | Responds r =>
         if ok r then
           match json r with
           | Ret o => Ret o
           | Raise e => if is_RequestException e then Ret ONone else Raise e
           end
         else Ret ONone
     end).
Proof.
  intros Hreg.
  unfold get_device_status, getitem.
  rewrite (contains_lookup _ _ _ Hreg), Hreg. simpl.
  unfold try_except, bind, Requests.get, send, raise_for_status, call_json,
    status_request, base_url, after_request.
  repeat rewrite append_assoc. simpl.
  destruct (respond n (sent n) _) as [e | r].
  - destruct (is_RequestException e); reflexivity.
  - destruct (ok r); simpl; [|reflexivity].
    destruct (json r) as [o | e]; [reflexivity|].
    destruct (is_RequestException e); reflexivity.
Qed.

(** [perform_device_action] on a registered id: one POST, and the result
    read off the answer. *)
Lemma perform_device_action_registered (self : IOTFacade)
    (device_id host : string) (port : Z) (action : string)
    (kwargs : dict pyval) (n : Network) :
  lookup (devices self) device_id = Some (host, port) ->
  perform_device_action self device_id action kwargs n =
    (after_request n (action_request host port action kwargs),
     match respond n (sent n) (action_request host port action kwargs) with
     | Raises e => if is_RequestException e then Ret false else Raise e
     | Responds r => Ret (ok r)
     end).
Proof.
  intros Hreg.
  unfold perform_device_action, getitem.
  rewrite (contains_lookup _ _ _ Hreg), Hreg.
  cbn [negb]. unfold bind at 1. unfold ret at 1. cbv iota beta.
  rewrite url_path_segments.
  unfold try_except, bind, Requests.post, send, raise_for_status,
    action_request, base_url, after_request.
  repeat rewrite append_assoc. simpl.
  destruct (respond n (sent n) _) as [e | r].
  - destruct (is_RequestException e); reflexivity.
  - destruct (ok r); reflexivity.
Qed.

(** C5: for an id that is not in the registry, [get_device_status] returns
    [None] and [perform_device_action] returns [False]; neither raises and
    the network is left as it was, no request having been sent. *)
Theorem unknown_device_no_request (self : IOTFacade) (device_id action : string)
    (kwargs : dict pyval) (n : Network) :
  contains (devices self) device_id = false ->
  get_device_status self device_id n = (n, Ret ONone) /\
  perform_device_action self device_id action kwargs n = (n, Ret false).
Proof.
  intros Hunknown.
  unfold get_device_status, perform_device_action.
  rewrite Hunknown. split; reflexivity.
Qed.

Lemma unknown_device_no_request_witness :
  get_device_status Scenario.facade_L1 "L2" Scenario.up = (Scenario.up, Ret ONone) /\
  perform_device_action Scenario.facade_L1 "L2" "power" [("state", VStr "on")]
    Scenario.up = (Scenario.up, Ret false).
Proof.
  apply (unknown_device_no_request Scenario.facade_L1 "L2" "power"
           [("state", VStr "on")] Scenario.up).
  reflexivity.
Defined.

(** The loop of [get_all_status], started with [statuses], appends to it
    the truthy results of the lookups. *)
Lemma get_all_status_loop_lookups (self : IOTFacade) (ids : list string) :
  forall (statuses : list pyobj) (n : Network),
    get_all_status_loop self ids statuses n =
      (found <- lookups self ids ;;
       ret (statuses ++ filter truthy found)%list) n.
Proof.
  induction ids as [|device_id ids IH]; intros statuses n.
  - simpl. unfold bind, ret. rewrite app_nil_r. reflexivity.
  - simpl. unfold bind.
    destruct (get_device_status self device_id n) as [n1 [status | e]];
      [|reflexivity].
    rewrite IH. unfold bind.
    destruct (lookups self ids n1) as [n2 [found | e]]; [|reflexivity].
    unfold ret. simpl.
    destruct (truthy status); [rewrite <- app_assoc|]; reflexivity.
Qed.

(** C6, as the code has it: [get_all_status] calls [get_device_status] on
    every registered id in the iteration order of the registry and returns,
    in that order, the results that are truthy: a result that is [None],
    or an empty or zero payload, is left out. *)
Theorem get_all_status_truthy (self : IOTFacade) (n : Network) :
  get_all_status self n = all_status_where truthy self n.
Proof.
  unfold get_all_status, all_status_where.
  rewrite get_all_status_loop_lookups. reflexivity.
Qed.

(** C6 does not hold with "non-absent" for "truthy": a device that answers
    [{}] has a status that is not [None], and [get_all_status] leaves it
    out. *)
Lemma get_all_status_omits_empty_status :
  snd (get_device_status Scenario.facade_A_B "A" Scenario.empty_status) =
    Ret (ODict []) /\
  snd (get_all_status Scenario.facade_A_B Scenario.empty_status) = Ret [] /\
  snd (all_status_where is_not_None Scenario.facade_A_B Scenario.empty_status) =
    Ret [ODict []; ODict []] /\
  get_all_status Scenario.facade_A_B Scenario.empty_status <>
    all_status_where is_not_None Scenario.facade_A_B Scenario.empty_status.
Proof.
  repeat split; try reflexivity.
  intros Heq. apply (f_equal snd) in Heq. vm_compute in Heq. discriminate.
Qed.

(** The specification's example: of two devices, the reachable one only. *)
Example get_all_status_A_up_B_down :
  snd (get_all_status Scenario.facade_A_B Scenario.only_A_up) =
    Ret [Scenario.status_A] /\
  map url (sent (fst (get_all_status Scenario.facade_A_B Scenario.only_A_up))) =
    ["http://a:1/status"; "http://b:2/status"].
Proof.
  split; reflexivity.
Qed.

(** C8: for a registered id, [perform_device_action] sends one POST to the
    device's address whose path is the action name followed by every
    parameter value, in the order supplied and without the names, one
    segment each; it returns [True] exactly when the device answers with a
    status that is not an error status, and [False] when the answer is an
    error status or the request fails with a [RequestException], a refused
    connection or a timeout among them. *)
Theorem perform_device_action_path_and_result (self : IOTFacade)
    (device_id host : string) (port : Z) (action : string)
    (kwargs : dict pyval) (n : Network) :
  lookup (devices self) device_id = Some (host, port) ->
  let rq := action_request host port action kwargs in
  let call := perform_device_action self device_id action kwargs n in
  url rq = ("http://" ++ host ++ ":" ++ str_int port ++ "/" ++ action ++
            fold_right (fun v rest => "/" ++ str v ++ rest) "" (values kwargs))%string /\
  sent (fst call) = (sent n ++ [rq])%list /\
  (snd call = Ret true <->
     exists r, respond n (sent n) rq = Responds r /\ ok r = true) /\
  (forall r, respond n (sent n) rq = Responds r -> ok r = false ->
     snd call = Ret false) /\
  (forall e, respond n (sent n) rq = Raises e -> is_RequestException e = true ->
     snd call = Ret false).
Proof.
  intros Hreg rq call. subst call.
  rewrite (perform_device_action_registered _ _ _ _ _ _ _ Hreg).
  fold rq. cbn [fst snd after_request sent].
  split; [|split; [reflexivity|split; [|split]]].
  - unfold rq, action_request, base_url, path_segments. cbn [url].
    repeat rewrite append_assoc. reflexivity.
  - destruct (respond n (sent n) rq) as [e | r]; split.
    + destruct (is_RequestException e); discriminate.
    + intros [r [Hr _]]. discriminate.
    + intros Hok. exists r. split; [reflexivity | congruence].
    + intros [r' [Hr Hok]]. injection Hr as <-. rewrite Hok. reflexivity.
  - intros r Hr Hok. rewrite Hr, Hok. reflexivity.
  - intros e He Hcls. rewrite He, Hcls. reflexivity.
Qed.

Lemma perform_device_action_path_and_result_witness :
  let rq := action_request "127.0.0.1" 8002 "power" [("state", VStr "on")] in
  let call := perform_device_action Scenario.facade_L1 "L1" "power"
                [("state", VStr "on")] Scenario.up in
  url rq = "http://127.0.0.1:8002/power/on"%string /\
  sent (fst call) = (sent Scenario.up ++ [rq])%list /\
  (snd call = Ret true <->
     exists r, respond Scenario.up (sent Scenario.up) rq = Responds r /\ ok r = true) /\
  (forall r, respond Scenario.up (sent Scenario.up) rq = Responds r -> ok r = false ->
     snd call = Ret false) /\
  (forall e, respond Scenario.up (sent Scenario.up) rq = Raises e ->
     is_RequestException e = true -> snd call = Ret false).
Proof.
  apply (perform_device_action_path_and_result Scenario.facade_L1 "L1"
           "127.0.0.1" 8002 "power" [("state", VStr "on")] Scenario.up).
  reflexivity.
Defined.

(** C9: [register_device] is total; it stores the device's [(host, port)]
    under the device's id, replacing what was stored under that id and
    leaving every other id as it was, and returns the confirmation string;
    a status lookup or an action under that id right afterwards sends its
    request to that [host] and [port]. *)
Theorem register_device_resolves {D : Type} {dev : BaseDevice.Device D}
    (self : IOTFacade) (device : D) (other action : string)
    (kwargs : dict pyval) (n : Network) :
  let device_id := BaseDevice.device_id device in
  let host := BaseDevice.host device in
  let port := BaseDevice.port device in
  let self' := fst (register_device self device) in
  snd (register_device self device) =
    ("Device " ++ device_id ++ " registered successfully")%string /\
  lookup (devices self') other =
    (if String.eqb other device_id then Some (host, port)
     else lookup (devices self) other) /\
  sent (fst (get_device_status self' device_id n)) =
    (sent n ++ [status_request host port])%list /\
  sent (fst (perform_device_action self' device_id action kwargs n)) =
    (sent n ++ [action_request host port action kwargs])%list.
Proof.
  intros device_id host port self'.
  assert (Hreg : lookup (devices self') device_id = Some (host, port))
    by apply lookup_setitem_same.
  split; [reflexivity|split; [|split]].
  - destruct (String.eqb other device_id) eqn:E.
    + apply String.eqb_eq in E. subst other. exact Hreg.
    + apply String.eqb_neq in E. apply lookup_setitem_other. exact E.
  - rewrite (get_device_status_registered _ _ _ _ _ Hreg). reflexivity.
  - rewrite (perform_device_action_registered _ _ _ _ _ _ _ Hreg). reflexivity.
Qed.

(** The specification's scenario: [L1] registered at [127.0.0.1:8002]. *)
Example register_L1 :
  devices Scenario.facade_L1 = [("L1", ("127.0.0.1"%string, 8002))] /\
  map url (sent (fst (get_device_status Scenario.facade_L1 "L1" Scenario.down))) =
    ["http://127.0.0.1:8002/status"%string] /\
  snd (get_device_status Scenario.facade_L1 "L1" Scenario.down) = Ret ONone.
Proof.
  repeat split.
Qed.

End FacadeProperties.

(* ================================================================== *)
(** ** The specification's scenario, end to end *)
(* ================================================================== *)

Section ScenarioProperties.
Import Py.
Import BaseDevice.

(** [L1] behind two logging decorators: switching it on returns [True],
    prints one line per decorator, outermost first, and the light then
    reports the status of the scenario. *)
Example decorated_L1_power_on :
  let twice := LoggingDeviceDecorator__init__ (LoggingDeviceDecorator__init__ Scenario.L1) in
  let call := perform_action twice "power" [("state", VStr "on")] in
  returned call = Ret true /\
  printed call = [ Performing "power" "L1" [("state", VStr "on")];
                   Performing "power" "L1" [("state", VStr "on")] ] /\
  SmartLight.get_status (_device (_device (self_after call))) =
    [ ("device_id", VStr "L1"); ("type", VStr "smart_light");
      ("is_on", VBool true); ("brightness", VInt 50);
      ("connection", VStr "127.0.0.1:8002") ].
Proof.
  repeat split.
Qed.

(** The same light asked for a brightness without a level: the exception
    goes through both decorators. *)
Example decorated_L1_brightness_without_level :
  let twice := LoggingDeviceDecorator__init__ (LoggingDeviceDecorator__init__ Scenario.L1) in
  returned (perform_action twice "brightness" []) = Raise TypeError.
Proof.
  reflexivity.
Qed.

End ScenarioProperties.

(* ================================================================== *)
(** ** More on the smart light: what [perform_action] accepts and keeps *)
(* ================================================================== *)

Section SmartLightBehaviour.
Import Py.
Import SmartLight.
Import Sequences.


Lemma in_range_leb (n : Z) : (0 <=? n) && (n <=? 100) = true <-> 0 <= n <= 100.
Proof.
  rewrite andb_true_iff, !Z.leb_le. reflexivity.
Qed.

(** The two branches of [perform_action] and the fall-through. *)
Lemma perform_action_power_eq (self : SmartLightDevice) (kwargs : dict pyval) :
  perform_action self "power" kwargs =
    if eq_str (get kwargs "state") "on" then (set_is_on self true, Ret true)
    else if eq_str (get kwargs "state") "off" then (set_is_on self false, Ret true)
    else (self, Ret false).
Proof. reflexivity. Qed.

Lemma perform_action_brightness_eq (self : SmartLightDevice) (kwargs : dict pyval) :
  perform_action self "brightness" kwargs =
    match between 0 (get kwargs "level") 100 with
    | Raise e => (self, Raise e)
    | Ret true => (set_brightness self (get kwargs "level"), Ret true)
    | Ret false => (self, Ret false)
    end.
Proof. reflexivity. Qed.


(** One of the three: the action is ["power"], it is ["brightness"], or
    [perform_action] falls through to [return False]. *)
Lemma perform_action_cases (self : SmartLightDevice) (action : string)
    (kwargs : dict pyval) :
  action = "power" \/ action = "brightness" \/
  (action <> "power" /\ action <> "brightness" /\
   perform_action self action kwargs = (self, Ret false)).
Proof.
  destruct (String.eqb action "power") eqn:Ep;
    [left; apply String.eqb_eq; exact Ep|].
  destruct (String.eqb action "brightness") eqn:Eb;
    [right; left; apply String.eqb_eq; exact Eb|].
  right; right. apply String.eqb_neq in Ep. apply String.eqb_neq in Eb.
  split; [exact Ep | split; [exact Eb|]].
  apply perform_action_unknown_action; assumption.
Qed.




(** X3: a call that does not return [True], whether it returns [False] or
    raises, leaves the light exactly as it was. *)
Theorem perform_action_rejected_unchanged (self : SmartLightDevice)
    (action : string) (kwargs : dict pyval) :
  snd (perform_action self action kwargs) <> Ret true ->
  fst (perform_action self action kwargs) = self.
Proof.
  destruct (perform_action_cases self action kwargs) as [-> | [-> | [_ [_ Heq]]]].
  - rewrite perform_action_power_eq.
    destruct (eq_str _ "on"); [intros H; contradiction H; reflexivity|].
    destruct (eq_str _ "off"); [intros H; contradiction H; reflexivity|].
    reflexivity.
  - rewrite perform_action_brightness_eq.
    destruct (between 0 _ 100) as [[|] | e];
      [intros H; contradiction H; reflexivity | reflexivity | reflexivity].
  - rewrite Heq. reflexivity.
Qed.

Lemma perform_action_rejected_unchanged_witness :
  fst (perform_action Scenario.L1 "brightness" [("level", VStr "50")]) = Scenario.L1.
Proof.
  apply (perform_action_rejected_unchanged Scenario.L1 "brightness"
           [("level", VStr "50")]).
  discriminate.
Defined.

(** X4: repeating a call changes nothing more: made a second time right
    after the first, it returns what the first returned and leaves the light
    as the first left it. *)
Theorem perform_action_idempotent (self : SmartLightDevice) (action : string)
    (kwargs : dict pyval) :
  perform_action (fst (perform_action self action kwargs)) action kwargs =
    perform_action self action kwargs.
Proof.
  destruct (perform_action_cases self action kwargs) as [-> | [-> | [Hp [Hb Heq]]]].
  - rewrite !perform_action_power_eq.
    destruct (eq_str _ "on"); [reflexivity|].
    destruct (eq_str _ "off"); reflexivity.
  - rewrite !perform_action_brightness_eq.
    destruct (between 0 _ 100) as [[|] | e]; reflexivity.
  - rewrite Heq. simpl. exact Heq.
Qed.

(** X5: a ["power"] call and a ["brightness"] call do not interfere: each
    returns the same in either order, and the light ends up the same. *)
Theorem power_brightness_commute (self : SmartLightDevice)
    (kwargs_p kwargs_b : dict pyval) :
  let p_then_b :=
    perform_action (fst (perform_action self "power" kwargs_p)) "brightness" kwargs_b in
  let b_then_p :=
    perform_action (fst (perform_action self "brightness" kwargs_b)) "power" kwargs_p in
  fst p_then_b = fst b_then_p /\
  snd p_then_b = snd (perform_action self "brightness" kwargs_b) /\
  snd b_then_p = snd (perform_action self "power" kwargs_p).
Proof.
  cbv zeta. rewrite !perform_action_power_eq, !perform_action_brightness_eq.
  destruct (between 0 _ 100) as [[|] | e];
    (destruct (eq_str _ "on"); [repeat split|]);
    (destruct (eq_str _ "off"); repeat split).
Qed.

(** X6: keyword arguments other than the one the action reads are ignored:
    ["power"] depends on [state] only, ["brightness"] on [level] only, and
    any other action on nothing. *)
Theorem perform_action_reads_one_parameter (self : SmartLightDevice)
    (action : string) (kwargs kwargs' : dict pyval) :
  (get kwargs "state" = get kwargs' "state" ->
   perform_action self "power" kwargs = perform_action self "power" kwargs') /\
  (get kwargs "level" = get kwargs' "level" ->
   perform_action self "brightness" kwargs = perform_action self "brightness" kwargs') /\
  (action <> "power" -> action <> "brightness" ->
   perform_action self action kwargs = perform_action self action kwargs').
Proof.
  split; [|split].
  - intros Hstate. rewrite !perform_action_power_eq, Hstate. reflexivity.
  - intros Hlevel. rewrite !perform_action_brightness_eq, Hlevel. reflexivity.
  - intros Hp Hb. rewrite !perform_action_unknown_action by assumption.
    reflexivity.
Qed.

Lemma perform_action_reads_one_parameter_witness :
  perform_action Scenario.L1 "power" [("state", VStr "on"); ("level", VInt 500)] =
    perform_action Scenario.L1 "power" [("state", VStr "on")] /\
  perform_action Scenario.L1 "brightness" [("state", VStr "off"); ("level", VInt 7)] =
    perform_action Scenario.L1 "brightness" [("level", VInt 7)] /\
  perform_action Scenario.L1 "toggle" [("state", VStr "on")] =
    perform_action Scenario.L1 "toggle" [].
Proof.
  split; [|split].
  - apply (proj1 (perform_action_reads_one_parameter Scenario.L1 "power"
                    [("state", VStr "on"); ("level", VInt 500)]
                    [("state", VStr "on")])).
    reflexivity.
  - apply (proj1 (proj2 (perform_action_reads_one_parameter Scenario.L1 "brightness"
                    [("state", VStr "off"); ("level", VInt 7)]
                    [("level", VInt 7)]))).
    reflexivity.
  - apply (proj2 (proj2 (perform_action_reads_one_parameter Scenario.L1 "toggle"
                    [("state", VStr "on")] []))); discriminate.
Defined.




Lemma perform_all_identity (calls : list (string * dict pyval)) :
  forall self : SmartLightDevice,
    device_id (perform_all self calls) = device_id self /\
    host (perform_all self calls) = host self /\
    port (perform_all self calls) = port self.
Proof.
  induction calls as [|[action kwargs] calls IH]; intros self; simpl.
  - repeat split.
  - destruct (IH (fst (perform_action self action kwargs))) as [Hid [Hhost Hport]].
    destruct (perform_action_identity self action kwargs) as [Hid' [Hhost' Hport']].
    rewrite Hid, Hhost, Hport. repeat split; assumption.
Qed.

(** X8: whatever calls are made on a light, the status it reports keeps
    its five keys and the same [device_id], [type] and [connection]; only
    [is_on] and [brightness] follow the state. *)
Theorem get_status_after_any_calls (self : SmartLightDevice)
    (calls : list (string * dict pyval)) :
  let self' := perform_all self calls in
  keys (get_status self') = keys (get_status self) /\
  lookup (get_status self') "device_id" = lookup (get_status self) "device_id" /\
  lookup (get_status self') "type" = lookup (get_status self) "type" /\
  lookup (get_status self') "connection" = lookup (get_status self) "connection" /\
  lookup (get_status self') "is_on" = Some (VBool (is_on (state self'))) /\
  lookup (get_status self') "brightness" = Some (brightness (state self')).
Proof.
  cbv zeta.
  destruct (perform_all_identity calls self) as [Hid [Hhost Hport]].
  unfold get_status. simpl. rewrite Hid, Hhost, Hport.
  repeat split.
Qed.

End SmartLightBehaviour.

(* ================================================================== *)
(** ** The route handlers of the light *)
(* ================================================================== *)

Section RouteProperties.
Import Py.
Import SmartLight.

(** X9: the handler of [POST /brightness/{level}], entered with an integer,
    never lets an exception of the device through: from 0 to 100 it sets the
    brightness and returns the success body, otherwise it raises
    [HTTPException] 400 and leaves the light as it was. *)
Theorem set_brightness_route (self : SmartLightDevice) (level : Z) :
  (0 <= level <= 100 ->
   Routes.set_brightness self level =
     (set_brightness self (VInt level), Routes.Returns [("status", VStr "success")])) /\
  (level < 0 \/ 100 < level ->
   Routes.set_brightness self level =
     (self, Routes.HTTPException 400 "Invalid brightness level")) /\
  (forall e, snd (Routes.set_brightness self level) <> Routes.Fails e).
Proof.
  unfold Routes.set_brightness.
  rewrite (perform_action_brightness_int self _ level (get_singleton "level" (VInt level))).
  pose proof (in_range_leb level) as Hr.
  destruct ((0 <=? level) && (level <=? 100)).
  - split; [reflexivity|]. split; [|discriminate].
    intros Hout. assert (0 <= level <= 100) by (apply Hr; reflexivity). lia.
  - split; [|split; [reflexivity | discriminate]].
    intros Hin. apply Hr in Hin. discriminate.
Qed.

Lemma set_brightness_route_witness :
  Routes.set_brightness Scenario.L1 100 =
    (set_brightness Scenario.L1 (VInt 100), Routes.Returns [("status", VStr "success")]) /\
  Routes.set_brightness Scenario.L1 (-1) =
    (Scenario.L1, Routes.HTTPException 400 "Invalid brightness level").
Proof.
  split.
  - apply (proj1 (set_brightness_route Scenario.L1 100)). lia.
  - apply (proj1 (proj2 (set_brightness_route Scenario.L1 (-1)))). lia.
Defined.

(** X10: the handler of [POST /power/{state}] returns the success body and
    sets [is_on] when [state] is ["on"] or ["off"]; for any other string it
    raises [HTTPException] 400 and leaves the light as it was; it never lets
    an exception of the device through. *)
Theorem set_power_route (self : SmartLightDevice) (state : string) :
  (state = "on" \/ state = "off" ->
   Routes.set_power self state =
     (set_is_on self (String.eqb state "on"),
      Routes.Returns [("status", VStr "success")])) /\
  (state <> "on" -> state <> "off" ->
   Routes.set_power self state =
     (self, Routes.HTTPException 400 "Invalid power state")) /\
  (forall e, snd (Routes.set_power self state) <> Routes.Fails e).
Proof.
  unfold Routes.set_power.
  rewrite perform_action_power_eq, get_singleton. simpl.
  destruct (String.eqb state "on") eqn:Eon.
  - apply String.eqb_eq in Eon. subst state.
    split; [reflexivity|]. split; [|discriminate].
    intros Habs. contradiction Habs. reflexivity.
  - destruct (String.eqb state "off") eqn:Eoff.
    + apply String.eqb_eq in Eoff. subst state.
      split; [reflexivity|]. split; [|discriminate].
      intros _ Habs. contradiction Habs. reflexivity.
    + apply String.eqb_neq in Eon. apply String.eqb_neq in Eoff.
      split; [|split; [reflexivity | discriminate]].
      intros [Habs | Habs]; contradiction.
Qed.

Lemma set_power_route_witness :
  Routes.set_power Scenario.L1 "on" =
    (set_is_on Scenario.L1 true, Routes.Returns [("status", VStr "success")]) /\
  Routes.set_power Scenario.L1 "ON" =
    (Scenario.L1, Routes.HTTPException 400 "Invalid power state").
Proof.
  split.
  - apply (proj1 (set_power_route Scenario.L1 "on")). left. reflexivity.
  - apply (proj1 (proj2 (set_power_route Scenario.L1 "ON"))); discriminate.
Defined.

End RouteProperties.

(* ================================================================== *)
(** ** More on the decorator: what it prints and what it is taken for *)
(* ================================================================== *)

Section DecoratorBehaviour.
Import Py.
Import BaseDevice.
Import Wrapped.

Context {D : Type} {dev : Device D}.

(** However often a device is wrapped, the outermost decorator carries the
    device's own [device_id], [host] and [port]. *)
Lemma wrap_identity (n : nat) (device : D) :
  @device_id _ (wrapped_Device D dev n) (wrap dev n device) = device_id device /\
  @host _ (wrapped_Device D dev n) (wrap dev n device) = host device /\
  @port _ (wrapped_Device D dev n) (wrap dev n device) = port device.
Proof.
  induction n as [|n IH]; simpl; [repeat split | exact IH].
Qed.

(** X11: a call on a device behind [n] decorators prints [n] lines before
    what the device itself prints, one per decorator, and every one of them
    names the device's own id. *)
Theorem wrapped_prints_once_per_decorator (n : nat) (device : D)
    (action : string) (kwargs : dict pyval) :
  printed (@perform_action _ (wrapped_Device D dev n) (wrap dev n device)
             action kwargs) =
    (repeat (Performing action (device_id device) kwargs) n ++
     printed (perform_action device action kwargs))%list /\
  printed (@get_status _ (wrapped_Device D dev n) (wrap dev n device)) =
    (repeat (GettingStatus (device_id device)) n ++
     printed (get_status device))%list.
Proof.
  induction n as [|n [IHp IHs]]; [split; reflexivity|].
  destruct (wrap_identity n device) as [Hid _].
  split.
  - change (printed (@perform_action _ (wrapped_Device D dev (S n))
                       (wrap dev (S n) device) action kwargs))
      with (Performing action
              (@device_id _ (wrapped_Device D dev n) (wrap dev n device)) kwargs
            :: printed (@perform_action _ (wrapped_Device D dev n)
                          (wrap dev n device) action kwargs)).
    rewrite Hid, IHp. reflexivity.
  - change (printed (@get_status _ (wrapped_Device D dev (S n))
                       (wrap dev (S n) device)))
      with (GettingStatus
              (@device_id _ (wrapped_Device D dev n) (wrap dev n device))
            :: printed (@get_status _ (wrapped_Device D dev n)
                          (wrap dev n device))).
    rewrite Hid, IHs. reflexivity.
Qed.

(** X12: the facade cannot tell a decorated device from the device itself:
    registering the one or the other gives the same registry and the same
    confirmation. *)
Theorem register_decorated_device (n : nat) (self : Facade.IOTFacade) (device : D) :
  @Facade.register_device _ (wrapped_Device D dev n) self (wrap dev n device) =
    Facade.register_device self device.
Proof.
  unfold Facade.register_device.
  destruct (wrap_identity n device) as [Hid [Hhost Hport]].
  rewrite Hid, Hhost, Hport. reflexivity.
Qed.

End DecoratorBehaviour.

Section ServedProperties.
Import Py.
Import BaseDevice.
Import Wrapped.
Import Served.

(** X13: a request served by the app of a light behind [n] decorators is
    handled as the light alone handles it, with the same outcome and the
    same light afterwards, and prints nothing: the decorators' logging is
    not on the way of the routes. *)
Theorem app_bypasses_decorators (n : nat)
    (self : wrapped SmartLight.SmartLightDevice n) (rq : routed) :
  let '(self', lines, o) := app n self rq in
  let '(light', _, o') := light_app (innermost n self) rq in
  innermost n self' = light' /\ o = o' /\ lines = [].
Proof.
  induction n as [|n IH]; simpl.
  - unfold light_app.
    destruct (match rq with
              | Status => Routes.get_status self
              | Power state => Routes.set_power self state
              | Brightness level => Routes.set_brightness self level
              end) as [self' o].
    repeat split.
  - specialize (IH (_device self)).
    destruct (app n (_device self) rq) as [[device' lines] o].
    destruct (light_app (innermost n (_device self)) rq) as [[light' lines'] o'].
    simpl. exact IH.
Qed.

End ServedProperties.

(* ================================================================== *)
(** ** More on the registry *)
(* ================================================================== *)

Section DictBehaviour.
Import Py.
Context {V : Type}.

Lemma contains_In (d : dict V) (k : string) :
  contains d k = true <-> In k (keys d).
Proof.
  unfold contains, keys.
  induction d as [|[k' v'] d IH]; simpl.
  - split; [discriminate | intros []].
  - destruct (String.eqb k' k) eqn:E.
    + apply String.eqb_eq in E. split; [intros _; left; exact E | reflexivity].
    + apply String.eqb_neq in E. rewrite IH.
      split; [intros H; right; exact H | intros [H | H]; [contradiction | exact H]].
Qed.

Lemma contains_false_not_In (d : dict V) (k : string) :
  contains d k = false <-> ~ In k (keys d).
Proof.
  rewrite <- contains_In. destruct (contains d k); split; congruence.
Qed.

(** Assigning to a key that is there leaves the keys as they are; a key that
    is not there is added last. *)
Lemma keys_setitem (d : dict V) (k : string) (v : V) :
  keys (setitem d k v) = if contains d k then keys d else (keys d ++ [k])%list.
Proof.
  unfold contains, keys.
  induction d as [|[k' v'] d IH]; simpl; [reflexivity|].
  destruct (String.eqb k' k) eqn:E; simpl; [reflexivity|].
  rewrite IH. destruct (lookup d k); reflexivity.
Qed.

Lemma setitem_setitem (d : dict V) (k : string) (v v' : V) :
  setitem (setitem d k v) k v' = setitem d k v'.
Proof.
  induction d as [|[k0 v0] d IH]; simpl.
  - rewrite String.eqb_refl. reflexivity.
  - destruct (String.eqb k0 k) eqn:E; simpl; rewrite E; [reflexivity|].
    rewrite IH. reflexivity.
Qed.

Lemma NoDup_keys_setitem (d : dict V) (k : string) (v : V) :
  NoDup (keys d) -> NoDup (keys (setitem d k v)).
Proof.
  intros Hd. rewrite keys_setitem.
  destruct (contains d k) eqn:E; [exact Hd|].
  apply contains_false_not_In in E.
  apply NoDup_rev in Hd. rewrite <- (rev_involutive (keys d ++ [k])).
  apply NoDup_rev. rewrite rev_app_distr. simpl.
  constructor; [rewrite <- in_rev; exact E | exact Hd].
Qed.

Lemma lookup_NoDup_In (d : dict V) (k : string) (v : V) :
  NoDup (keys d) -> In (k, v) d -> lookup d k = Some v.
Proof.
  unfold keys.
  induction d as [|[k0 v0] d IH]; simpl; intros Hd Hin; [contradiction|].
  inversion Hd as [|? ? Hnotin Hd']; subst.
  destruct Hin as [[= -> ->] | Hin].
  - rewrite String.eqb_refl. reflexivity.
  - destruct (String.eqb k0 k) eqn:E; [|apply IH; assumption].
    apply String.eqb_eq in E. subst k0.
    contradiction Hnotin. apply (in_map fst) in Hin. exact Hin.
Qed.

End DictBehaviour.

Section RegistryProperties.
Import Py.
Import Requests.
Import Facade.
Import FacadeSpec.
Import Sequences.

Context {D : Type} {dev : BaseDevice.Device D}.

(** X14: registering a device whose id is already in the registry keeps the
    iteration order of the registry as it is; a device with a new id goes
    last.  No id is ever dropped. *)
Theorem register_device_keeps_order (self : IOTFacade) (device : D) :
  keys (devices (fst (register_device self device))) =
    if contains (devices self) (BaseDevice.device_id device)
    then keys (devices self)
    else (keys (devices self) ++ [BaseDevice.device_id device])%list.
Proof.
  unfold register_device. simpl. apply keys_setitem.
Qed.

Lemma register_all_NoDup (devs : list D) :
  forall self : IOTFacade,
    NoDup (keys (devices self)) ->
    NoDup (keys (devices (register_all self devs))).
Proof.
  induction devs as [|device devs IH]; intros self Hself; simpl.
  - exact Hself.
  - apply IH. unfold register_device. simpl.
    apply NoDup_keys_setitem. exact Hself.
Qed.

(** X15: in a registry built by registrations on a new facade, every id
    occurs once, however many devices were registered under it. *)
Theorem registry_ids_unique (devs : list D) :
  NoDup (keys (devices (register_all IOTFacade__init__ devs))).
Proof.
  apply register_all_NoDup. simpl. constructor.
Qed.

(** X16: of two registrations under one id the second is the one that
    counts: the registry is the one that the second registration alone would
    have given. *)
Theorem register_device_last_wins (self : IOTFacade) (first second : D) :
  BaseDevice.device_id first = BaseDevice.device_id second ->
  fst (register_device (fst (register_device self first)) second) =
    fst (register_device self second).
Proof.
  intros Hid. unfold register_device. simpl.
  rewrite Hid, setitem_setitem. reflexivity.
Qed.

Lemma register_device_contains (self : IOTFacade) (device : D) (id : string) :
  contains (devices self) id = true \/ id = BaseDevice.device_id device ->
  contains (devices (fst (register_device self device))) id = true.
Proof.
  intros H. unfold register_device. simpl.
  apply contains_In. rewrite keys_setitem.
  destruct (contains (devices self) (BaseDevice.device_id device)) eqn:E.
  - destruct H as [H | ->]; apply contains_In; assumption.
  - apply in_or_app. destruct H as [H | ->].
    + left. apply contains_In. exact H.
    + right. left. reflexivity.
Qed.

Lemma register_all_contains (devs : list D) :
  forall (self : IOTFacade) (id : string),
    contains (devices self) id = true \/
    (exists device, In device devs /\ BaseDevice.device_id device = id) ->
    contains (devices (register_all self devs)) id = true.
Proof.
  induction devs as [|device devs IH]; intros self id H; simpl.
  - destruct H as [H | [device [[] _]]]. exact H.
  - apply IH.
    destruct H as [H | [device' [[<- | Hin] Hid]]].
    + left. apply register_device_contains. left. exact H.
    + left. apply register_device_contains. right. symmetry. exact Hid.
    + right. exists device'. split; assumption.
Qed.

(** X17: nothing is ever taken out of the registry: an id that is
    registered is still registered after any further registrations, and
    every device of a list of registrations is registered at the end. *)
Theorem registered_stays_registered (self : IOTFacade) (devs : list D)
    (id : string) (device : D) :
  (contains (devices self) id = true ->
   contains (devices (register_all self devs)) id = true) /\
  (In device devs ->
   contains (devices (register_all self devs)) (BaseDevice.device_id device) = true).
Proof.
  split.
  - intros H. apply register_all_contains. left. exact H.
  - intros H. apply register_all_contains. right.
    exists device. split; [exact H | reflexivity].
Qed.

End RegistryProperties.

Section RegistryWitnesses.
Import Py.
Import Facade.
Import Sequences.

Lemma register_device_last_wins_witness :
  fst (register_device (fst (register_device Scenario.facade_A_B Scenario.L1))
         (SmartLight.SmartLightDevice__init__ "L1" "10.0.0.5" 9000)) =
    fst (register_device Scenario.facade_A_B
           (SmartLight.SmartLightDevice__init__ "L1" "10.0.0.5" 9000)).
Proof.
  apply (register_device_last_wins Scenario.facade_A_B Scenario.L1
           (SmartLight.SmartLightDevice__init__ "L1" "10.0.0.5" 9000)).
  reflexivity.
Defined.

Lemma registered_stays_registered_witness :
  contains (devices (register_all Scenario.facade_A_B [Scenario.L1])) "A" = true /\
  contains (devices (register_all Scenario.facade_A_B [Scenario.L1])) "L1" = true.
Proof.
  split.
  - apply (proj1 (registered_stays_registered Scenario.facade_A_B [Scenario.L1]
                    "A" Scenario.L1)).
    reflexivity.
  - exact (proj2 (registered_stays_registered Scenario.facade_A_B [Scenario.L1]
                    "A" Scenario.L1) (or_introl eq_refl)).
Defined.

End RegistryWitnesses.

(* ================================================================== *)
(** ** More on the facade: what goes over the wire and what comes back *)
(* ================================================================== *)

Section FacadeBehaviour.
Import Py.
Import Requests.
Import Facade.
Import FacadeSpec.
Import Sequences.
Local Open Scope requests_scope.

(** X18: for a registered id, [get_device_status] sends one GET with
    timeout 2 to [http://host:port/status]; it returns the decoded body of
    a response that is not an error, [None] for an error status (whose body
    it does not decode) or a [RequestException], and it lets through any
    other exception, from the request or from the decoding. *)
Theorem get_device_status_outcome (self : IOTFacade) (device_id host : string)
    (port : Z) (n : Network) :
  lookup (devices self) device_id = Some (host, port) ->
  let rq := {| verb := GET;
               url := ("http://" ++ host ++ ":" ++ str_int port ++ "/status")%string;
               timeout := 2 |} in
  let call := get_device_status self device_id n in
  sent (fst call) = (sent n ++ [rq])%list /\
  (forall r o, respond n (sent n) rq = Responds r -> ok r = true ->
     json r = Ret o -> snd call = Ret o) /\
  (forall r, respond n (sent n) rq = Responds r -> ok r = false ->
     snd call = Ret ONone) /\
  (forall e, is_RequestException e = true ->
     respond n (sent n) rq = Raises e \/
     (exists r, respond n (sent n) rq = Responds r /\ json r = Raise e) ->
     snd call = Ret ONone) /\
  (forall e, snd call = Raise e <->
     is_RequestException e = false /\
     (respond n (sent n) rq = Raises e \/
      exists r, respond n (sent n) rq = Responds r /\ ok r = true /\
                json r = Raise e)).
Proof.
  intros Hreg rq call. subst call.
  rewrite (get_device_status_registered _ _ _ _ _ Hreg).
  assert (Hrq : status_request host port = rq).
  { unfold status_request, base_url, rq. repeat rewrite append_assoc. reflexivity. }
  rewrite Hrq. cbn [fst snd after_request sent].
  split; [reflexivity|].
  destruct (respond n (sent n) rq) as [e0 | r0].
  - split; [intros r o H; discriminate|].
    split; [intros r H; discriminate|].
    split.
    + intros e He [[= ->] | [r [H _]]]; [|discriminate].
      rewrite He. reflexivity.
    + intros e. destruct (is_RequestException e0) eqn:E0; split.
      * discriminate.
      * intros [He [[= ->] | [r [H _]]]]; [congruence | discriminate].
      * intros [= ->]. split; [exact E0 | left; reflexivity].
      * intros [He [[= ->] | [r [H _]]]]; [reflexivity | discriminate].
  - split.
    { intros r o [= <-] Hok Hjson. rewrite Hok, Hjson. reflexivity. }
    split.
    { intros r [= <-] Hok. rewrite Hok. reflexivity. }
    split.
    + intros e He [H | [r [[= <-] Hjson]]]; [discriminate|].
      destruct (ok r0); [|reflexivity].
      rewrite Hjson, He. reflexivity.
    + intros e. destruct (ok r0) eqn:Hok.
      * destruct (json r0) as [o | e1] eqn:Hjson.
        -- split; [discriminate|].
           intros [_ [H | [r [[= <-] [_ H]]]]]; [discriminate | congruence].
        -- destruct (is_RequestException e1) eqn:E1; split.
           ++ discriminate.
           ++ intros [He [H | [r [[= <-] [_ H]]]]]; [discriminate | congruence].
           ++ intros [= ->]. split; [exact E1|].
              right. exists r0. repeat split; assumption.
           ++ intros [He [H | [r [[= <-] [_ H]]]]]; [discriminate | congruence].
      * split; [discriminate|].
        intros [_ [H | [r [[= <-] [H _]]]]]; [discriminate | congruence].
Qed.

Lemma get_device_status_outcome_witness :
  let rq := {| verb := GET; url := "http://a:1/status"; timeout := 2 |} in
  sent (fst (get_device_status Scenario.facade_A_B "A" Faults.unavailable)) = [rq] /\
  snd (get_device_status Scenario.facade_A_B "A" Faults.unavailable) = Ret ONone.
Proof.
  intros rq.
  pose proof (get_device_status_outcome Scenario.facade_A_B "A" "a" 1
                Faults.unavailable eq_refl) as [Hsent [_ [Herr _]]].
  split.
  - exact Hsent.
  - apply (Herr {| status_code := 503; json := Ret Scenario.status_A |});
      reflexivity.
Defined.

(** X19: what reaches the wire is the text of the parameter values, in
    order: keyword arguments whose values print alike, under whatever names
    and of whatever types, give the same request and the same result. *)
Theorem perform_device_action_values_only (self : IOTFacade)
    (device_id action : string) (kwargs kwargs' : dict pyval) (n : Network) :
  map str (values kwargs) = map str (values kwargs') ->
  perform_device_action self device_id action kwargs n =
    perform_device_action self device_id action kwargs' n.
Proof.
  intros Hsame. unfold perform_device_action. rewrite Hsame. reflexivity.
Qed.

Lemma perform_device_action_values_only_witness :
  perform_device_action Scenario.facade_L1 "L1" "brightness"
    [("level", VInt 50)] Scenario.up =
  perform_device_action Scenario.facade_L1 "L1" "brightness"
    [("percent", VStr "50")] Scenario.up.
Proof.
  apply (perform_device_action_values_only Scenario.facade_L1 "L1" "brightness"
           [("level", VInt 50)] [("percent", VStr "50")] Scenario.up).
  reflexivity.
Defined.

Lemma get_device_status_unregistered (self : IOTFacade) (device_id : string)
    (n : Network) :
  lookup (devices self) device_id = None ->
  get_device_status self device_id n = (n, Ret ONone).
Proof.
  intros Hnone. unfold get_device_status, contains. rewrite Hnone. reflexivity.
Qed.

(** What a lookup raises is not a [RequestException]. *)
Lemma get_device_status_raises (self : IOTFacade) (device_id : string)
    (n : Network) (e : exn) :
  snd (get_device_status self device_id n) = Raise e ->
  is_RequestException e = false.
Proof.
  destruct (lookup (devices self) device_id) as [[host port]|] eqn:Hreg.
  - rewrite (get_device_status_registered _ _ _ _ _ Hreg). cbn [snd].
    destruct (respond n (sent n) _) as [e0 | r].
    + destruct (is_RequestException e0) eqn:E0; [discriminate|].
      intros [= <-]. exact E0.
    + destruct (ok r); [|discriminate].
      destruct (json r) as [o | e1]; [discriminate|].
      destruct (is_RequestException e1) eqn:E1; [discriminate|].
      intros [= <-]. exact E1.
  - rewrite (get_device_status_unregistered _ _ _ Hreg). discriminate.
Qed.

Lemma perform_device_action_raises (self : IOTFacade) (device_id action : string)
    (kwargs : dict pyval) (n : Network) (e : exn) :
  snd (perform_device_action self device_id action kwargs n) = Raise e ->
  is_RequestException e = false.
Proof.
  destruct (lookup (devices self) device_id) as [[host port]|] eqn:Hreg.
  - rewrite (perform_device_action_registered _ _ _ _ _ _ _ Hreg). cbn [snd].
    destruct (respond n (sent n) _) as [e0 | r]; [|discriminate].
    destruct (is_RequestException e0) eqn:E0; [discriminate|].
    intros [= <-]. exact E0.
  - unfold perform_device_action, contains. rewrite Hreg. discriminate.
Qed.

Lemma get_all_status_loop_raises (self : IOTFacade) (ids : list string) (e : exn) :
  forall (statuses : list pyobj) (n : Network),
    snd (get_all_status_loop self ids statuses n) = Raise e ->
    is_RequestException e = false.
Proof.
  induction ids as [|device_id ids IH]; intros statuses n; simpl.
  - discriminate.
  - unfold bind.
    pose proof (get_device_status_raises self device_id n) as Hone.
    destruct (get_device_status self device_id n) as [n1 [status | e1]].
    + apply IH.
    + cbn [snd] in *. intros [= <-]. apply Hone. reflexivity.
Qed.

(** X20: no [RequestException] ever comes out of the facade: whatever the
    network does, a connection error, a timeout or an HTTP error is never
    what [get_device_status], [perform_device_action] or [get_all_status]
    raises. *)
Theorem facade_never_raises_RequestException (self : IOTFacade)
    (device_id action : string) (kwargs : dict pyval) (n : Network) (e : exn) :
  is_RequestException e = true ->
  snd (get_device_status self device_id n) <> Raise e /\
  snd (perform_device_action self device_id action kwargs n) <> Raise e /\
  snd (get_all_status self n) <> Raise e.
Proof.
  intros He. repeat split; intros Hraise.
  - apply get_device_status_raises in Hraise. congruence.
  - apply perform_device_action_raises in Hraise. congruence.
  - apply get_all_status_loop_raises in Hraise. congruence.
Qed.

Lemma facade_never_raises_RequestException_witness :
  snd (get_device_status Scenario.facade_L1 "L1" Scenario.down) <> Raise ConnectionError /\
  snd (perform_device_action Scenario.facade_L1 "L1" "power" [("state", VStr "on")]
         Scenario.down) <> Raise ConnectionError /\
  snd (get_all_status Scenario.facade_L1 Scenario.down) <> Raise ConnectionError.
Proof.
  apply (facade_never_raises_RequestException Scenario.facade_L1 "L1" "power"
           [("state", VStr "on")] Scenario.down ConnectionError).
  reflexivity.
Defined.

(** As many results as lookups. *)
Lemma lookups_length (self : IOTFacade) (ids : list string) :
  forall (n n' : Network) (found : list pyobj),
    lookups self ids n = (n', Ret found) -> length found = length ids.
Proof.
  induction ids as [|device_id ids IH]; intros n n' found; simpl.
  - unfold ret. intros [= _ <-]. reflexivity.
  - unfold bind.
    destruct (get_device_status self device_id n) as [n1 [status | e1]];
      [|discriminate].
    destruct (lookups self ids n1) as [n2 [rest | e2]] eqn:Hrest; [|discriminate].
    unfold ret. intros [= _ <-]. simpl. f_equal. apply (IH _ _ _ Hrest).
Qed.

(** X21: every status that [get_all_status] returns is truthy, so none of
    them is [None] or empty, and there is at most one per registered
    device. *)
Theorem get_all_status_results (self : IOTFacade) (n : Network)
    (statuses : list pyobj) :
  snd (get_all_status self n) = Ret statuses ->
  Forall (fun status => truthy status = true /\ status <> ONone) statuses /\
  (length statuses <= length (devices self))%nat.
Proof.
  unfold get_all_status. rewrite get_all_status_loop_lookups. unfold bind.
  destruct (lookups self (keys (devices self)) n) as [n' [found | e]] eqn:Hfound;
    [|discriminate].
  unfold ret. cbn [snd app]. intros [= <-].
  split.
  - apply Forall_forall. intros status Hin.
    apply filter_In in Hin. destruct Hin as [_ Htruthy].
    split; [exact Htruthy|]. intros ->. discriminate.
  - apply lookups_length in Hfound. unfold keys in Hfound.
    rewrite length_map in Hfound. rewrite <- Hfound. apply filter_length_le.
Qed.

Lemma get_all_status_results_witness :
  Forall (fun status => truthy status = true /\ status <> ONone) [Scenario.status_A] /\
  (length [Scenario.status_A] <= length (devices Scenario.facade_A_B))%nat.
Proof.
  apply (get_all_status_results Scenario.facade_A_B Scenario.only_A_up
           [Scenario.status_A]).
  reflexivity.
Defined.

(** Sending a request does not change how the network answers. *)
Lemma only_RequestException_after (n : Network) (rq : Request) :
  only_RequestException n -> only_RequestException (after_request n rq).
Proof.
  intros Hn before rq'. exact (Hn before rq').
Qed.

(** On such a network a lookup of a registered id returns. *)
Lemma get_device_status_returns (self : IOTFacade) (device_id host : string)
    (port : Z) (n : Network) :
  lookup (devices self) device_id = Some (host, port) ->
  only_RequestException n ->
  exists status,
    get_device_status self device_id n =
      (after_request n (status_request host port), Ret status).
Proof.
  intros Hreg Hn.
  rewrite (get_device_status_registered _ _ _ _ _ Hreg).
  specialize (Hn (sent n) (status_request host port)).
  destruct (respond n (sent n) (status_request host port)) as [e | r].
  - rewrite Hn. eexists. reflexivity.
  - destruct (ok r); [|eexists; reflexivity].
    destruct (json r) as [o | e]; [eexists; reflexivity|].
    rewrite Hn. eexists. reflexivity.
Qed.

Lemma lookups_requests (self : IOTFacade) (entries : dict (string * Z)) :
  forall n : Network,
    (forall id address, In (id, address) entries ->
                        lookup (devices self) id = Some address) ->
    only_RequestException n ->
    exists n' found,
      lookups self (keys entries) n = (n', Ret found) /\
      sent n' =
        (sent n ++
         map (fun entry => status_request (fst (snd entry)) (snd (snd entry)))
           entries)%list.
Proof.
  induction entries as [|[id [host port]] entries IH]; intros n Hreg Hn.
  - exists n, []. split; [reflexivity|]. simpl. rewrite app_nil_r. reflexivity.
  - destruct (get_device_status_returns self id host port n) as [status Hone];
      [apply Hreg; left; reflexivity | exact Hn |].
    destruct (IH (after_request n (status_request host port))) as [n' [found [Hrest Hsent]]].
    + intros id' address Hin. apply Hreg. right. exact Hin.
    + apply only_RequestException_after. exact Hn.
    + exists n', (status :: found). split.
      * change (keys ((id, (host, port)) :: entries)) with (id :: keys entries).
        cbn [lookups]. unfold bind at 1. rewrite Hone.
        unfold bind at 1. rewrite Hrest. reflexivity.
      * rewrite Hsent. cbn [after_request sent map fst snd].
        rewrite <- app_assoc. reflexivity.
Qed.

(** X22: when requests and decodings fail with [RequestException] only,
    [get_all_status] does not raise, and it sends exactly one GET to the
    status address of every registered device, in the iteration order of the
    registry, whether or not the device answers. *)
Theorem get_all_status_one_request_each (self : IOTFacade) (n : Network) :
  NoDup (keys (devices self)) ->
  only_RequestException n ->
  (exists statuses, snd (get_all_status self n) = Ret statuses) /\
  sent (fst (get_all_status self n)) =
    (sent n ++
     map (fun entry => status_request (fst (snd entry)) (snd (snd entry)))
       (devices self))%list.
Proof.
  intros Hunique Hn.
  destruct (lookups_requests self (devices self) n) as [n' [found [Hfound Hsent]]].
  - intros id address Hin. apply lookup_NoDup_In; assumption.
  - exact Hn.
  - unfold get_all_status. rewrite get_all_status_loop_lookups.
    unfold bind. rewrite Hfound. unfold ret. cbn [fst snd].
    split; [eexists; reflexivity | exact Hsent].
Qed.

Lemma only_A_up_only_RequestException : only_RequestException Scenario.only_A_up.
Proof.
  intros before rq. simpl.
  destruct (String.eqb (url rq) "http://a:1/status"); simpl; [exact I | reflexivity].
Qed.

Lemma get_all_status_one_request_each_witness :
  (exists statuses,
     snd (get_all_status Scenario.facade_A_B Scenario.only_A_up) = Ret statuses) /\
  sent (fst (get_all_status Scenario.facade_A_B Scenario.only_A_up)) =
    [ {| verb := GET; url := "http://a:1/status"; timeout := 2 |};
      {| verb := GET; url := "http://b:2/status"; timeout := 2 |} ].
Proof.
  apply (get_all_status_one_request_each Scenario.facade_A_B Scenario.only_A_up).
  - repeat constructor; simpl; intuition discriminate.
  - exact only_A_up_only_RequestException.
Defined.

Lemma get_all_status_loop_aborts (self : IOTFacade) (device_id : string)
    (after : list string) (e : exn) (n2 : Network) (before : list string) :
  forall (statuses found : list pyobj) (n n1 : Network),
    lookups self before n = (n1, Ret found) ->
    get_device_status self device_id n1 = (n2, Raise e) ->
    get_all_status_loop self (before ++ device_id :: after) statuses n =
      (n2, Raise e).
Proof.
  induction before as [|id before IH]; intros statuses found n n1; simpl.
  - unfold ret. intros [= <- _] Hraise. unfold bind. rewrite Hraise. reflexivity.
  - unfold bind.
    destruct (get_device_status self id n) as [na [status | e1]]; [|discriminate].
    destruct (lookups self before na) as [nb [rest | e2]] eqn:Hrest; [|discriminate].
    unfold ret. intros [= <- _] Hraise.
    apply (IH _ _ _ _ Hrest Hraise).
Qed.

(** X23: an exception that a lookup lets through aborts [get_all_status]:
    it is raised in turn, the statuses gathered before it are lost, and the
    devices that come later in the registry are not asked. *)
Theorem get_all_status_aborts (self : IOTFacade) (before after : list string)
    (device_id : string) (found : list pyobj) (e : exn) (n n1 n2 : Network) :
  keys (devices self) = (before ++ device_id :: after)%list ->
  lookups self before n = (n1, Ret found) ->
  get_device_status self device_id n1 = (n2, Raise e) ->
  get_all_status self n = (n2, Raise e).
Proof.
  intros Hkeys Hbefore Hraise.
  unfold get_all_status. rewrite Hkeys.
  apply (get_all_status_loop_aborts _ _ _ _ _ _ _ _ _ _ Hbefore Hraise).
Qed.

Lemma get_all_status_aborts_witness :
  get_all_status (fst (register_device Scenario.facade_A_B Scenario.L1))
    Faults.A_up_others_garbled =
  ({| respond := respond Faults.A_up_others_garbled;
      sent := [ {| verb := GET; url := "http://a:1/status"; timeout := 2 |};
                {| verb := GET; url := "http://b:2/status"; timeout := 2 |} ] |},
   Raise ValueError).
Proof.
  apply (get_all_status_aborts (fst (register_device Scenario.facade_A_B Scenario.L1))
           ["A"] ["L1"] "B" [Scenario.status_A] ValueError
           Faults.A_up_others_garbled
           {| respond := respond Faults.A_up_others_garbled;
              sent := [ {| verb := GET; url := "http://a:1/status"; timeout := 2 |} ] |});
    reflexivity.
Defined.

End FacadeBehaviour.
